(** * Option containers of the MongoDB C++ driver and their wire documents

    A shallow embedding of
      - [mongocxx::options::create_collection_deprecated]
        (setters, getters, [to_document_deprecated], [to_document]),
      - [mongocxx::model::update_one] (its three constructors, getters and
        setters),
      - [mongocxx::options::pool],
    together with the properties the specification states about them.

    Objects live in a store indexed by address; a member function is a
    computation over that store, so that [return *this] really returns the
    address of the receiver and a [const] member function can be seen to
    leave the store alone. *)

From Stdlib Require Import ZArith List String Bool Arith Lia.
Import ListNotations.
Local Open Scope string_scope.
Local Open Scope Z_scope.
Local Open Scope list_scope.

(* ================================================================== *)
(** * Part I: definitions *)
(* ================================================================== *)

(** ** BSON values and documents (bsoncxx) *)

Module bsoncxx.

(** [std::int32_t] and [std::int64_t]: the setters take them by value and
    the compiler stores them as they are; no arithmetic is done on them. *)
Definition int32 : Type := Z.
Definition int64 : Type := Z.

(** Modelled from the spec: the document and array value types belong to
    bsoncxx, whose sources are not among the files verified here ("opaque
    immutable-or-owned value types supporting view/value duality").  A document is the ordered sequence of its
    key-value elements; an array is a document whose keys are the indices. *)
#[local] Set Warnings "-register-all".
Inductive bson_value : Type :=
| b_bool (b : bool)
| b_int32 (n : int32)
| b_int64 (n : int64)
| b_utf8 (s : string)
| b_document (d : list (string * bson_value))
| b_array (a : list (string * bson_value)).

Definition element : Type := string * bson_value.

(** The content of a BSON buffer, whether it is looked at through a
    [document::view] or owned by a [document::value]. *)
Definition document : Type := list element.

(** [document::view{}] points at the empty document. *)
Definition empty_document : document := [].

Definition keys (d : document) : list string := map fst d.

(** [view::operator[]] / [view::find]: the first element under that key. *)
Fixpoint find (key : string) (d : document) : option bson_value :=
  match d with
  | [] => None
  | (k, v) :: rest => if String.eqb k key then Some v else find key rest
  end.

(** [document::value(document::view)] copies the viewed bytes into a buffer
    of its own. *)
Definition document_value (v : document) : document := v.

(** Modelled from the spec: [array::view] wraps the view of the underlying
    document and converts to it ([operator document::view]). *)
Record array_view : Type := { _view : document }.

Definition document_of_array (a : array_view) : document := _view a.

(** Modelled from the spec: [view_or_value<View, Value>] either borrows a view
    or owns a value ("a view borrows, a value owns"); both give access to the
    same content through [view()]. *)
Inductive view_or_value (A : Type) : Type :=
| borrowed (v : A)
| owned (v : A).

Arguments borrowed {A} v.
Arguments owned {A} v.

Definition view {A : Type} (x : view_or_value A) : A :=
  match x with
  | borrowed v => v
  | owned v => v
  end.

(** [operator==] on [view_or_value] compares the two views. *)
Definition view_or_value_eq {A : Type} (x y : view_or_value A) : Prop :=
  view x = view y.

(** [bsoncxx::document::view_or_value] and [bsoncxx::array::view_or_value]. *)
Definition document_view_or_value : Type := view_or_value document.
Definition array_view_or_value : Type := view_or_value array_view.

(** A default-constructed [document::view_or_value] holds a
    default-constructed view. *)
Definition document_view_or_value_default : document_view_or_value :=
  borrowed empty_document.

(** *** [builder::basic::document] *)

(** What [append] accepts: a key-value pair built by [kvp], or the elements
    of a whole document wrapped by [concatenate]. *)
Inductive appendable : Type :=
| kvp (key : string) (value : bson_value)
| concatenate (doc : document).

(** Modelled from the spec: the state of a basic document builder is the
    sequence of elements appended so far ("append a single key-value pair",
    "spliced (concatenated) into the parent document"). *)
Record builder : Type := { _core : list element }.

Definition builder_new : builder := {| _core := [] |}.

Definition append (b : builder) (a : appendable) : builder :=
  match a with
  | kvp key value => {| _core := _core b ++ [(key, value)] |}
  | concatenate doc => {| _core := _core b ++ doc |}
  end.

Definition extract (b : builder) : document := _core b.

End bsoncxx.

(** ** Objects, references and member functions *)

Module object.

(** The address of an object; a C++ reference ([T&], [this]) is one. *)
Definition addr : Type := nat.

Section Store.
Variable T : Type.

(** The objects of class [T], by address. *)
Definition store : Type := addr -> T.

(** A member function is a computation over the store: it yields its result
    and the store it leaves. *)
Definition method (A : Type) : Type := store -> A * store.

Definition ret {A : Type} (a : A) : method A := fun s => (a, s).

Definition bind {A B : Type} (m : method A) (k : A -> method B) : method B :=
  fun s => k (fst (m s)) (snd (m s)).

(** Reading the receiver, as a [const] member function does. *)
Definition load (this : addr) : method T := fun s => (s this, s).

(** [this->_member = value;] as the change [f] of the receiver's fields. *)
Definition assign (this : addr) (f : T -> T) : method unit :=
  fun s => (tt, fun a => if Nat.eqb a this then f (s this) else s a).

(** Running a constructor at address [this]. *)
Definition construct (this : addr) (obj : T) : method unit :=
  fun s => (tt, fun a => if Nat.eqb a this then obj else s a).

End Store.

Arguments ret {T A} a.
Arguments bind {T A B} m k.
Arguments load {T} this.
Arguments assign {T} this f.
Arguments construct {T} this obj.

(** The value a call returns, and the store it leaves. *)
Definition result {T A : Type} (m : method T A) (s : store T) : A := fst (m s).
Definition after {T A : Type} (m : method T A) (s : store T) : store T := snd (m s).

(** What the specification asks of a setter and of the getters around it. *)
Section Contracts.
Context {T V : Type}.
Variable setter : addr -> V -> method T addr.

(** The reference returned is the receiver. *)
Definition returns_self : Prop :=
  forall this v s, result (setter this v) s = this.

(** The getter of the same field then reports the value as present. *)
Definition sets (getter : addr -> method T (option V)) : Prop :=
  forall this v s, result (getter this) (after (setter this v) s) = Some v.

(** A getter of another field answers as before, on every object. *)
Definition preserves {A : Type} (getter : addr -> method T A) : Prop :=
  forall this v s a, result (getter a) (after (setter this v) s) = result (getter a) s.

(** Objects other than the receiver are not touched. *)
Definition frames : Prop :=
  forall this v s a, a <> this -> after (setter this v) s a = s a.

(** The three together; [observe] calls every getter of the class and
    [expected v] says what they answer once the setter has stored [v]. *)
Definition setter_contract {O : Type} (observe : addr -> method T O)
    (expected : V -> O -> O) : Prop :=
  returns_self /\ frames /\
  forall this v s,
    result (observe this) (after (setter this v) s)
    = expected v (result (observe this) s).

End Contracts.

(** A [const] member function leaves every store as it found it. *)
Definition is_const {T A : Type} (m : method T A) : Prop :=
  forall s, after m s = s.

End object.

Declare Scope method_scope.
Delimit Scope method_scope with method.
Notation "x <- m ;; k" := (object.bind m (fun x => k))
  (at level 61, m at next level, right associativity) : method_scope.
Notation "m ;; k" := (object.bind m (fun _ => k))
  (at level 61, right associativity) : method_scope.

(** ** [mongocxx::validation_criteria] *)

Module validation_criteria.

(** Modelled from the spec: the validation-criteria class is defined
    elsewhere in the driver; all that the collection options use of it is
    that it compiles itself to a document ("a validation-criteria sub-object ... recursively
    compiled"). *)
Class compiles (V : Type) : Type :=
  to_document_deprecated : V -> bsoncxx.document.

End validation_criteria.

(** ** [mongocxx::options::create_collection_deprecated] *)

Module create_collection_deprecated.
Import bsoncxx object.
Local Open Scope method_scope.

Section Class_.
Variable V : Type.
Context `{validation_criteria.compiles V}.

(** The data members, read off the getters' return types. *)
Record t : Type := mk {
  _capped : option bool;
  _collation : option document_view_or_value;
  _max_documents : option int64;
  _no_padding : option bool;
  _max_size : option int64;
  _storage_engine_opts : option document_view_or_value;
  _validation : option V
}.

(** Modelled from the spec: the class header is not among the files verified
    here and the source file defines no constructor; "optional fields start
    absent". *)
Definition default : t := mk None None None None None None None.

Definition create_collection_deprecated (this : addr) : method t unit :=
  construct this default.

(** Assignments to a single member. *)
Definition assign_capped (x : option bool) (o : t) : t :=
  mk x (_collation o) (_max_documents o) (_no_padding o) (_max_size o)
     (_storage_engine_opts o) (_validation o).
Definition assign_collation (x : option document_view_or_value) (o : t) : t :=
  mk (_capped o) x (_max_documents o) (_no_padding o) (_max_size o)
     (_storage_engine_opts o) (_validation o).
Definition assign_max_documents (x : option int64) (o : t) : t :=
  mk (_capped o) (_collation o) x (_no_padding o) (_max_size o)
     (_storage_engine_opts o) (_validation o).
Definition assign_no_padding (x : option bool) (o : t) : t :=
  mk (_capped o) (_collation o) (_max_documents o) x (_max_size o)
     (_storage_engine_opts o) (_validation o).
Definition assign_max_size (x : option int64) (o : t) : t :=
  mk (_capped o) (_collation o) (_max_documents o) (_no_padding o) x
     (_storage_engine_opts o) (_validation o).
Definition assign_storage_engine_opts (x : option document_view_or_value) (o : t) : t :=
  mk (_capped o) (_collation o) (_max_documents o) (_no_padding o) (_max_size o)
     x (_validation o).
Definition assign_validation (x : option V) (o : t) : t :=
  mk (_capped o) (_collation o) (_max_documents o) (_no_padding o) (_max_size o)
     (_storage_engine_opts o) x.

(** *** Setters: store the argument, [return *this] *)

Definition capped (this : addr) (capped : bool) : method t addr :=
  assign this (assign_capped (Some capped)) ;;
  ret this.

Definition collation (this : addr) (collation : document_view_or_value) : method t addr :=
  assign this (assign_collation (Some collation)) ;;
  ret this.

Definition max (this : addr) (max_documents : int64) : method t addr :=
  assign this (assign_max_documents (Some max_documents)) ;;
  ret this.

Definition no_padding (this : addr) (no_padding : bool) : method t addr :=
  assign this (assign_no_padding (Some no_padding)) ;;
  ret this.

Definition size (this : addr) (max_size : int64) : method t addr :=
  assign this (assign_max_size (Some max_size)) ;;
  ret this.

Definition storage_engine (this : addr) (storage_engine_opts : document_view_or_value)
  : method t addr :=
  assign this (assign_storage_engine_opts (Some storage_engine_opts)) ;;
  ret this.

Definition validation_criteria (this : addr) (validation : V) : method t addr :=
  assign this (assign_validation (Some validation)) ;;
  ret this.

(** *** Getters ([const]); the C++ overload of the setter's name *)

Definition get_capped (this : addr) : method t (option bool) :=
  o <- load this ;; ret (_capped o).

Definition get_collation (this : addr) : method t (option document_view_or_value) :=
  o <- load this ;; ret (_collation o).

Definition get_max (this : addr) : method t (option int64) :=
  o <- load this ;; ret (_max_documents o).

Definition get_no_padding (this : addr) : method t (option bool) :=
  o <- load this ;; ret (_no_padding o).

Definition get_size (this : addr) : method t (option int64) :=
  o <- load this ;; ret (_max_size o).

Definition get_storage_engine (this : addr) : method t (option document_view_or_value) :=
  o <- load this ;; ret (_storage_engine_opts o).

Definition get_validation_criteria (this : addr) : method t (option V) :=
  o <- load this ;; ret (_validation o).

(** Every getter, one after the other. *)
Definition observe (this : addr)
  : method t (option bool * option document_view_or_value * option int64
              * option bool * option int64 * option document_view_or_value
              * option V) :=
  capped <- get_capped this ;;
  collation <- get_collation this ;;
  max <- get_max this ;;
  no_padding <- get_no_padding this ;;
  size <- get_size this ;;
  storage_engine <- get_storage_engine this ;;
  validation <- get_validation_criteria this ;;
  ret (capped, collation, max, no_padding, size, storage_engine, validation).

(** *** The document compiler *)

(** The body of [to_document_deprecated], on the receiver's fields: the
    local builder [doc] is threaded through the seven [if]s. *)
Definition compile (o : t) : document :=
  let doc := builder_new in
  let doc := match _capped o with
             | Some capped => append doc (kvp "capped" (b_bool capped))
             | None => doc
             end in
  let doc := match _collation o with
             | Some collation =>
                 append doc (kvp "collation" (b_document (view collation)))
             | None => doc
             end in
  let doc := match _max_documents o with
             | Some max_documents => append doc (kvp "max" (b_int64 max_documents))
             | None => doc
             end in
  let doc := match _max_size o with
             | Some max_size => append doc (kvp "size" (b_int64 max_size))
             | None => doc
             end in
  let doc := match _no_padding o with
             | Some no_padding =>
                 append doc (kvp "flags" (b_int32 (if no_padding then 0x10 else 0x00)))
             | None => doc
             end in
  let doc := match _storage_engine_opts o with
             | Some storage_engine_opts =>
                 append doc
                   (kvp "storageEngine" (b_document (view storage_engine_opts)))
             | None => doc
             end in
  let doc := match _validation o with
             | Some validation =>
                 append doc
                   (concatenate (validation_criteria.to_document_deprecated validation))
             | None => doc
             end in
  extract doc.

Definition to_document_deprecated (this : addr) : method t document :=
  o <- load this ;; ret (compile o).

Definition to_document (this : addr) : method t document :=
  to_document_deprecated this.

End Class_.

Arguments mk {V}.
Arguments _capped {V}.
Arguments _collation {V}.
Arguments _max_documents {V}.
Arguments _no_padding {V}.
Arguments _max_size {V}.
Arguments _storage_engine_opts {V}.
Arguments _validation {V}.
Arguments default {V}.
Arguments create_collection_deprecated {V}.
Arguments assign_validation {V}.
Arguments capped {V}.
Arguments collation {V}.
Arguments max {V}.
Arguments no_padding {V}.
Arguments size {V}.
Arguments storage_engine {V}.
Arguments validation_criteria {V}.
Arguments get_capped {V}.
Arguments get_collation {V}.
Arguments get_max {V}.
Arguments get_no_padding {V}.
Arguments get_size {V}.
Arguments get_storage_engine {V}.
Arguments get_validation_criteria {V}.
Arguments observe {V}.
Arguments compile {V _}.
Arguments to_document_deprecated {V _}.
Arguments to_document {V _}.

End create_collection_deprecated.

(** ** [mongocxx::pipeline] and [mongocxx::hint] *)

Module pipeline.

(** Modelled from the spec: the pipeline class is defined elsewhere in the
    driver; it "exposes a method to render itself as an array-of-stages view". *)
Class renders (P : Type) : Type :=
  view_array : P -> bsoncxx.array_view.

End pipeline.

(** ** [mongocxx::model::update_one] *)

Module update_one.
Import bsoncxx object.
Local Open Scope method_scope.

(** The tag class has a private constructor: no value of it can be made, and
    the only initializer list of tags is the empty one, written [{}]. *)
Inductive _empty_doc_tag : Type := .

Section Class_.
(** [mongocxx::hint] is used verbatim as a field value. *)
Variable hint_t : Type.
Variable P : Type.
Context `{pipeline.renders P}.

Record t : Type := mk {
  _filter : document_view_or_value;
  _update : document_view_or_value;
  _collation : option document_view_or_value;
  _array_filters : option array_view_or_value;
  _upsert : option bool;
  _hint : option hint_t
}.

(** *** Constructors: the member initialisers; the optionals are left to
    their default, disengaged state *)

Definition update_one (this : addr) (filter update : document_view_or_value)
  : method t unit :=
  construct this (mk filter update None None None None).

Definition update_one_pipeline (this : addr) (filter : document_view_or_value)
    (update : P) : method t unit :=
  construct this
    (mk filter
        (owned (document_value (document_of_array (pipeline.view_array update))))
        None None None None).

Definition update_one_empty (this : addr) (filter : document_view_or_value)
    (_ : list _empty_doc_tag) : method t unit :=
  construct this (mk filter document_view_or_value_default None None None None).

(** Assignments to a single member. *)
Definition assign_collation (x : option document_view_or_value) (o : t) : t :=
  mk (_filter o) (_update o) x (_array_filters o) (_upsert o) (_hint o).
Definition assign_array_filters (x : option array_view_or_value) (o : t) : t :=
  mk (_filter o) (_update o) (_collation o) x (_upsert o) (_hint o).
Definition assign_upsert (x : option bool) (o : t) : t :=
  mk (_filter o) (_update o) (_collation o) (_array_filters o) x (_hint o).
Definition assign_hint (x : option hint_t) (o : t) : t :=
  mk (_filter o) (_update o) (_collation o) (_array_filters o) (_upsert o) x.

(** *** Getters and setters, in the order of the source *)

Definition filter (this : addr) : method t document_view_or_value :=
  o <- load this ;; ret (_filter o).

Definition update (this : addr) : method t document_view_or_value :=
  o <- load this ;; ret (_update o).

Definition collation (this : addr) (collation : document_view_or_value)
  : method t addr :=
  assign this (assign_collation (Some collation)) ;;
  ret this.

Definition get_collation (this : addr) : method t (option document_view_or_value) :=
  o <- load this ;; ret (_collation o).

Definition hint (this : addr) (index_hint : hint_t) : method t addr :=
  assign this (assign_hint (Some index_hint)) ;;
  ret this.

Definition get_hint (this : addr) : method t (option hint_t) :=
  o <- load this ;; ret (_hint o).

Definition upsert (this : addr) (upsert : bool) : method t addr :=
  assign this (assign_upsert (Some upsert)) ;;
  ret this.

Definition get_upsert (this : addr) : method t (option bool) :=
  o <- load this ;; ret (_upsert o).

Definition array_filters (this : addr) (array_filters : array_view_or_value)
  : method t addr :=
  assign this (assign_array_filters (Some array_filters)) ;;
  ret this.

Definition get_array_filters (this : addr) : method t (option array_view_or_value) :=
  o <- load this ;; ret (_array_filters o).

(** Every getter, one after the other. *)
Definition observe (this : addr)
  : method t (document_view_or_value * document_view_or_value
              * option document_view_or_value * option hint_t * option bool
              * option array_view_or_value) :=
  filter <- filter this ;;
  update <- update this ;;
  collation <- get_collation this ;;
  hint <- get_hint this ;;
  upsert <- get_upsert this ;;
  array_filters <- get_array_filters this ;;
  ret (filter, update, collation, hint, upsert, array_filters).

End Class_.

Arguments mk {hint_t}.
Arguments observe {hint_t}.
Arguments _filter {hint_t}.
Arguments _update {hint_t}.
Arguments _collation {hint_t}.
Arguments _array_filters {hint_t}.
Arguments _upsert {hint_t}.
Arguments _hint {hint_t}.
Arguments update_one {hint_t}.
Arguments update_one_pipeline {hint_t P _}.
Arguments update_one_empty {hint_t}.
Arguments filter {hint_t}.
Arguments update {hint_t}.
Arguments collation {hint_t}.
Arguments get_collation {hint_t}.
Arguments hint {hint_t}.
Arguments get_hint {hint_t}.
Arguments upsert {hint_t}.
Arguments get_upsert {hint_t}.
Arguments array_filters {hint_t}.
Arguments get_array_filters {hint_t}.

End update_one.

(** ** [mongocxx::options::client] and [mongocxx::options::pool] *)

Module client.

(** Modelled from the spec: the client options class is defined elsewhere
    in the driver; the pool options use its default constructor,
    [client()]. *)
Class default_constructible (C : Type) : Type :=
  client : C.

End client.

Module pool.
Import object.
Local Open Scope method_scope.

Section Class_.
Variable C : Type.
Context `{client.default_constructible C}.

(** The one data member the header declares. *)
Record t : Type := mk { _client_opts : C }.

(** Modelled from the spec: the header declares [pool(client client_opts)]
    and documents its parameter as "The client options"; its definition
    (pool.cpp) is not among the files verified here ("takes required fields
    directly"). *)
Definition pool (this : addr) (client_opts : C) : method t unit :=
  construct this (mk client_opts).

(** The default argument of the declaration: [client_opts = client()]. *)
Definition pool_default (this : addr) : method t unit :=
  pool this client.client.

(** Modelled from the spec: the header documents [client_opts()] as
    returning "The current client options"; its definition (pool.cpp) is
    not among the files verified here ("returns the stored value"). *)
Definition client_opts (this : addr) : method t C :=
  o <- load this ;; ret (_client_opts o).

End Class_.

Arguments mk {C}.
Arguments _client_opts {C}.
Arguments pool {C}.
Arguments pool_default {C _}.
Arguments client_opts {C}.

End pool.

(** ** The wire contract of the collection options, in the specification's words *)

Module wire_contract.
Import bsoncxx.

(** "If present, append a single key-value pair using the field's canonical
    wire key name"; "absent fields contribute nothing". *)
Definition field {A : Type} (key : string) (encode : A -> bson_value)
    (x : option A) : document :=
  match x with
  | Some v => [(key, encode v)]
  | None => []
  end.

(** "true -> 0x10, false -> 0x00". *)
Definition flag (no_padding : bool) : bson_value :=
  b_int32 (if no_padding then 16 else 0).

Definition as_document (d : document_view_or_value) : bson_value :=
  b_document (view d).

(** "Nested option groups ... are recursively compiled and their resulting
    key-value pairs are spliced (concatenated) into the parent document". *)
Definition spliced {V : Type} `{validation_criteria.compiles V} (x : option V)
  : document :=
  match x with
  | Some v => validation_criteria.to_document_deprecated v
  | None => []
  end.

(** The table of section 6, row by row. *)
Definition spec_document {V : Type} `{validation_criteria.compiles V}
    (o : create_collection_deprecated.t V) : document :=
  field "capped" b_bool (create_collection_deprecated._capped o)
  ++ field "collation" as_document (create_collection_deprecated._collation o)
  ++ field "max" b_int64 (create_collection_deprecated._max_documents o)
  ++ field "size" b_int64 (create_collection_deprecated._max_size o)
  ++ field "flags" flag (create_collection_deprecated._no_padding o)
  ++ field "storageEngine" as_document
       (create_collection_deprecated._storage_engine_opts o)
  ++ spliced (create_collection_deprecated._validation o).

(** The wire keys of the container's own fields. *)
Definition own_keys : list string :=
  ["capped"; "collation"; "max"; "size"; "flags"; "storageEngine"].

(** One for a present field, none for an absent one. *)
Definition present {A : Type} (x : option A) : nat :=
  match x with
  | Some _ => 1
  | None => 0
  end.

End wire_contract.

(** ** Concrete objects, for running the definitions *)

Module samples.
Import bsoncxx object.

(** A validation sub-object that compiles to two keys. *)
Inductive sample_validation : Type := strict_rule.

Definition sample_validation_document : document :=
  [("validator", b_document [("qty", b_document [("$gte", b_int32 0)])]);
   ("validationLevel", b_utf8 "strict")].

#[global] Instance sample_validation_compiles
  : validation_criteria.compiles sample_validation :=
  fun _ => sample_validation_document.

(** A store whose every collection-options object is freshly constructed. *)
Definition fresh_options : store (create_collection_deprecated.t sample_validation) :=
  fun _ => create_collection_deprecated.default.

Definition sample_collation : document_view_or_value :=
  owned [("locale", b_utf8 "fr")].

(** [opts.capped(true).size(4096).no_padding(true).validation_criteria(v)],
    on the object at address 0. *)
Definition chained_options : store (create_collection_deprecated.t sample_validation) :=
  after (r <- create_collection_deprecated.capped 0%nat true ;;
         r <- create_collection_deprecated.size r 4096 ;;
         r <- create_collection_deprecated.no_padding r true ;;
         create_collection_deprecated.validation_criteria r strict_rule)%method
        fresh_options.

(** The same object once only a validation sub-object has been set. *)
Definition validated_options : store (create_collection_deprecated.t sample_validation) :=
  after (create_collection_deprecated.validation_criteria 0%nat strict_rule)
        fresh_options.

(** A pipeline given by its stages: [$match] then [$set]. *)
Inductive sample_pipeline : Type := match_then_set.

Definition sample_stages : array_view :=
  {| _view := [("0", b_document [("$match", b_document [("a", b_int32 1)])]);
               ("1", b_document [("$set", b_document [("b", b_int32 2)])])] |}.

#[global] Instance sample_pipeline_renders : pipeline.renders sample_pipeline :=
  fun _ => sample_stages.

(** Hints by index name. *)
Definition sample_hint : Type := string.

Definition sample_filter : document_view_or_value :=
  borrowed [("_id", b_int64 7)].

(** A store of update models, all built by the empty-update constructor. *)
Definition blank_updates : store (update_one.t sample_hint) :=
  fun _ => update_one.mk sample_filter document_view_or_value_default
             None None None None.

(** Client options reduced to an application name, empty by default. *)
Definition sample_client : Type := string.

#[global] Instance sample_client_default
  : client.default_constructible sample_client := "".

Definition blank_pools : store (pool.t sample_client) :=
  fun _ => pool.mk "".

End samples.

(** ** Calls in sequence *)

Module chains.
Import bsoncxx object.
Local Open Scope method_scope.

Section Chain.
Context {T C : Type}.
Variable call : addr -> C -> method T addr.

(** [obj.a(x).b(y). ...]: each call is made on the reference that the call
    before it returned. *)
Fixpoint chain (r : addr) (cs : list C) : method T addr :=
  match cs with
  | [] => ret r
  | c :: rest => r' <- call r c ;; chain r' rest
  end.

End Chain.

(** The first option if it holds a value, the second otherwise. *)
Definition or_else {V : Type} (x y : option V) : option V :=
  match x with
  | Some v => Some v
  | None => y
  end.

(** The argument of the last call of [cs] that [sel] picks, if there is one. *)
Fixpoint last_set {C V : Type} (sel : C -> option V) (cs : list C) : option V :=
  match cs with
  | [] => None
  | c :: rest => or_else (last_set sel rest) (sel c)
  end.

(** Two calls of one setter in a row leave what the second alone leaves. *)
Definition last_wins {T V : Type} (setter : addr -> V -> method T addr) : Prop :=
  forall this v1 v2 s a,
    after (setter this v2) (after (setter this v1) s) a
    = after (setter this v2) s a.

(** Two setters, on the same receiver or on two, in either order. *)
Definition commute {T V W : Type} (f : addr -> V -> method T addr)
    (g : addr -> W -> method T addr) : Prop :=
  forall this1 this2 v w s a,
    after (g this2 w) (after (f this1 v) s) a
    = after (f this1 v) (after (g this2 w) s) a.

(** *** The setter calls of [update_one] *)

Inductive update_one_call (hint_t : Type) : Type :=
| uo_collation (collation : document_view_or_value)
| uo_hint (index_hint : hint_t)
| uo_upsert (upsert : bool)
| uo_array_filters (array_filters : array_view_or_value).

Arguments uo_collation {hint_t} collation.
Arguments uo_hint {hint_t} index_hint.
Arguments uo_upsert {hint_t} upsert.
Arguments uo_array_filters {hint_t} array_filters.

Definition update_one_call_on {hint_t : Type} (r : addr)
    (c : update_one_call hint_t) : method (update_one.t hint_t) addr :=
  match c with
  | uo_collation v => update_one.collation r v
  | uo_hint v => update_one.hint r v
  | uo_upsert v => update_one.upsert r v
  | uo_array_filters v => update_one.array_filters r v
  end.

Definition uo_collation_of {hint_t : Type} (c : update_one_call hint_t)
  : option document_view_or_value :=
  match c with uo_collation v => Some v | _ => None end.
Definition uo_hint_of {hint_t : Type} (c : update_one_call hint_t) : option hint_t :=
  match c with uo_hint v => Some v | _ => None end.
Definition uo_upsert_of {hint_t : Type} (c : update_one_call hint_t) : option bool :=
  match c with uo_upsert v => Some v | _ => None end.
Definition uo_array_filters_of {hint_t : Type} (c : update_one_call hint_t)
  : option array_view_or_value :=
  match c with uo_array_filters v => Some v | _ => None end.

(** *** The setter calls of [create_collection_deprecated] *)

Inductive options_call (V : Type) : Type :=
| cc_capped (capped : bool)
| cc_collation (collation : document_view_or_value)
| cc_max (max_documents : int64)
| cc_no_padding (no_padding : bool)
| cc_size (max_size : int64)
| cc_storage_engine (storage_engine_opts : document_view_or_value)
| cc_validation_criteria (validation : V).

Arguments cc_capped {V} capped.
Arguments cc_collation {V} collation.
Arguments cc_max {V} max_documents.
Arguments cc_no_padding {V} no_padding.
Arguments cc_size {V} max_size.
Arguments cc_storage_engine {V} storage_engine_opts.
Arguments cc_validation_criteria {V} validation.

Definition options_call_on {V : Type} (r : addr) (c : options_call V)
  : method (create_collection_deprecated.t V) addr :=
  match c with
  | cc_capped v => create_collection_deprecated.capped r v
  | cc_collation v => create_collection_deprecated.collation r v
  | cc_max v => create_collection_deprecated.max r v
  | cc_no_padding v => create_collection_deprecated.no_padding r v
  | cc_size v => create_collection_deprecated.size r v
  | cc_storage_engine v => create_collection_deprecated.storage_engine r v
  | cc_validation_criteria v => create_collection_deprecated.validation_criteria r v
  end.

Definition cc_capped_of {V : Type} (c : options_call V) : option bool :=
  match c with cc_capped v => Some v | _ => None end.
Definition cc_collation_of {V : Type} (c : options_call V)
  : option document_view_or_value :=
  match c with cc_collation v => Some v | _ => None end.
Definition cc_max_of {V : Type} (c : options_call V) : option int64 :=
  match c with cc_max v => Some v | _ => None end.
Definition cc_no_padding_of {V : Type} (c : options_call V) : option bool :=
  match c with cc_no_padding v => Some v | _ => None end.
Definition cc_size_of {V : Type} (c : options_call V) : option int64 :=
  match c with cc_size v => Some v | _ => None end.
Definition cc_storage_engine_of {V : Type} (c : options_call V)
  : option document_view_or_value :=
  match c with cc_storage_engine v => Some v | _ => None end.
Definition cc_validation_criteria_of {V : Type} (c : options_call V) : option V :=
  match c with cc_validation_criteria v => Some v | _ => None end.

(** The fields a chain of calls leaves in a container that held [o]: for
    each field the argument of the last call of its setter, or what [o]
    held when the chain has none. *)
Definition options_after {V : Type} (cs : list (options_call V))
    (o : create_collection_deprecated.t V) : create_collection_deprecated.t V :=
  create_collection_deprecated.mk
    (or_else (last_set cc_capped_of cs) (create_collection_deprecated._capped o))
    (or_else (last_set cc_collation_of cs) (create_collection_deprecated._collation o))
    (or_else (last_set cc_max_of cs) (create_collection_deprecated._max_documents o))
    (or_else (last_set cc_no_padding_of cs) (create_collection_deprecated._no_padding o))
    (or_else (last_set cc_size_of cs) (create_collection_deprecated._max_size o))
    (or_else (last_set cc_storage_engine_of cs)
       (create_collection_deprecated._storage_engine_opts o))
    (or_else (last_set cc_validation_criteria_of cs)
       (create_collection_deprecated._validation o)).

End chains.

(** ** Looking keys up in the compiled document *)

Module lookup.
Import bsoncxx.

(** The document without the elements under [key]. *)
Definition without_key (key : string) (d : document) : document :=
  filter (fun e => negb (String.eqb (fst e) key)) d.

(** What a lookup of a field's wire key finds: the field's encoding when
    the field is present, otherwise whatever [rest] finds. *)
Definition field_or {A : Type} (encode : A -> bson_value) (x : option A)
    (rest : option bson_value) : option bson_value :=
  match x with
  | Some v => Some (encode v)
  | None => rest
  end.

End lookup.

(* ================================================================== *)
(** * Part II: properties *)
(* ================================================================== *)

Import bsoncxx object.
Local Open Scope method_scope.

(** ** The store *)

Section StoreFacts.
Context {T : Type}.

Lemma result_bind {A B : Type} (m : method T A) (k : A -> method T B) (s : store T) :
  result (x <- m ;; k x) s = result (k (result m s)) (after m s).
Proof. reflexivity. Qed.

Lemma after_bind {A B : Type} (m : method T A) (k : A -> method T B) (s : store T) :
  after (x <- m ;; k x) s = after (k (result m s)) (after m s).
Proof. reflexivity. Qed.

Lemma after_assign_this (this : addr) (f : T -> T) (s : store T) :
  after (assign this f) s this = f (s this).
Proof. unfold after, assign; simpl. now rewrite Nat.eqb_refl. Qed.

Lemma after_assign_other (this a : addr) (f : T -> T) (s : store T) :
  a <> this -> after (assign this f) s a = s a.
Proof.
  intros Hne. unfold after, assign; simpl.
  destruct (Nat.eqb_spec a this) as [Heq | _]; [contradiction | reflexivity].
Qed.

Lemma after_construct_this (this : addr) (obj : T) (s : store T) :
  after (construct this obj) s this = obj.
Proof. unfold after, construct; simpl. now rewrite Nat.eqb_refl. Qed.

Lemma after_construct_other (this a : addr) (obj : T) (s : store T) :
  a <> this -> after (construct this obj) s a = s a.
Proof.
  intros Hne. unfold after, construct; simpl.
  destruct (Nat.eqb_spec a this) as [Heq | _]; [contradiction | reflexivity].
Qed.

(** A member function that only loads the receiver is [const]. *)
Lemma load_then_ret_const {A : Type} (this : addr) (f : T -> A) :
  is_const (o <- load this ;; ret (f o)).
Proof. intros s. reflexivity. Qed.

Lemma result_load_then_ret {A : Type} (this : addr) (f : T -> A) (s : store T) :
  result (o <- load this ;; ret (f o)) s = f (s this).
Proof. reflexivity. Qed.

(** The shape of every setter: one assignment, then [return *this]. *)
Lemma setter_result (this : addr) (f : T -> T) (s : store T) :
  result (assign this f ;; ret this) s = this.
Proof. reflexivity. Qed.

Lemma setter_after_this (this : addr) (f : T -> T) (s : store T) :
  after (assign this f ;; ret this) s this = f (s this).
Proof. rewrite after_bind. apply after_assign_this. Qed.

Lemma setter_after_other (this a : addr) (f : T -> T) (s : store T) :
  a <> this -> after (assign this f ;; ret this) s a = s a.
Proof. intros Hne. rewrite after_bind. now apply after_assign_other. Qed.

End StoreFacts.

(** ** The builder *)

(** One [if (field) doc.append(kvp(key, value))] step adds the field's row
    of the wire contract. *)
Lemma extract_optional_kvp {A : Type} (b : builder) (key : string)
    (encode : A -> bson_value) (x : option A) :
  extract match x with
          | Some v => append b (kvp key (encode v))
          | None => b
          end
  = extract b ++ wire_contract.field key encode x.
Proof.
  destruct x as [v |]; simpl.
  - reflexivity.
  - now rewrite app_nil_r.
Qed.

Lemma extract_optional_concatenate {V : Type} `{validation_criteria.compiles V}
    (b : builder) (x : option V) :
  extract match x with
          | Some v => append b (concatenate (validation_criteria.to_document_deprecated v))
          | None => b
          end
  = extract b ++ wire_contract.spliced x.
Proof.
  destruct x as [v |]; simpl.
  - reflexivity.
  - now rewrite app_nil_r.
Qed.

Lemma length_field {A : Type} (key : string) (encode : A -> bson_value) (x : option A) :
  List.length (wire_contract.field key encode x) = wire_contract.present x.
Proof. now destruct x. Qed.

Lemma keys_app (d1 d2 : document) : keys (d1 ++ d2) = keys d1 ++ keys d2.
Proof. apply map_app. Qed.

Lemma in_keys_field {A : Type} (k key : string) (encode : A -> bson_value)
    (x : option A) :
  In k (keys (wire_contract.field key encode x)) -> k = key /\ x <> None.
Proof.
  destruct x as [v |]; simpl.
  - intros [Heq | []]. split; [now symmetry | discriminate].
  - intros [].
Qed.

(** ** The document compiler of the collection options *)

Section Compiler.
Import create_collection_deprecated.
Context {V : Type} `{validation_criteria.compiles V}.

(** The seven steps of the builder add up to the rows of the wire contract,
    in the contract's order. *)
Lemma compile_spec_document (o : t V) :
  compile o = wire_contract.spec_document o.
Proof.
  unfold compile, wire_contract.spec_document. cbv zeta.
  rewrite extract_optional_concatenate.
  rewrite !extract_optional_kvp.
  change (extract builder_new) with (@nil element).
  rewrite app_nil_l, <- !app_assoc.
  reflexivity.
Qed.

Lemma to_document_deprecated_result (s : store (t V)) (this : addr) :
  result (to_document_deprecated this) s = compile (s this).
Proof. reflexivity. Qed.

Lemma to_document_deprecated_const (this : addr) :
  is_const (to_document_deprecated (V := V) this).
Proof. apply load_then_ret_const. Qed.

Lemma observe_result (s : store (t V)) (this : addr) :
  result (observe this) s
  = (_capped (s this), _collation (s this), _max_documents (s this),
     _no_padding (s this), _max_size (s this), _storage_engine_opts (s this),
     _validation (s this)).
Proof. reflexivity. Qed.

Lemma length_spec_document (o : t V) :
  List.length (wire_contract.spec_document o)
  = (wire_contract.present (_capped o)
     + wire_contract.present (_collation o)
     + wire_contract.present (_max_documents o)
     + wire_contract.present (_max_size o)
     + wire_contract.present (_no_padding o)
     + wire_contract.present (_storage_engine_opts o)
     + List.length (wire_contract.spliced (_validation o)))%nat.
Proof.
  unfold wire_contract.spec_document.
  rewrite !length_app, !length_field. lia.
Qed.

(** C1.  Whatever container sits at [this], [to_document_deprecated] returns
    the rows of the wire contract for the fields that are present, in the
    order capped, collation, max, size, flags, storageEngine, followed by
    the pairs of the validation sub-object: one pair per present field of
    the container's own, nothing for an absent one.  A container none of
    whose getters reports a value compiles to the empty document. *)
Theorem to_document_deprecated_wire_contract (s : store (t V)) (this : addr) :
  let o := s this in
  let doc := result (to_document_deprecated this) s in
  doc = wire_contract.spec_document o
  /\ List.length doc
     = (wire_contract.present (_capped o)
        + wire_contract.present (_collation o)
        + wire_contract.present (_max_documents o)
        + wire_contract.present (_max_size o)
        + wire_contract.present (_no_padding o)
        + wire_contract.present (_storage_engine_opts o)
        + List.length (wire_contract.spliced (_validation o)))%nat
  /\ (result (observe this) s = (None, None, None, None, None, None, None)
      -> doc = empty_document).
Proof.
  intros o doc. subst doc.
  rewrite to_document_deprecated_result. fold o.
  rewrite compile_spec_document.
  split; [reflexivity | split].
  - apply length_spec_document.
  - rewrite observe_result. fold o. intros Hnone.
    injection Hnone as Hcap Hcol Hmax Hpad Hsize Hse Hval.
    unfold wire_contract.spec_document.
    rewrite Hcap, Hcol, Hmax, Hpad, Hsize, Hse, Hval.
    reflexivity.
Qed.

End Compiler.

(** A run of the compiler: four fields set by a chain of setters. *)
Example chained_options_document :
  result (create_collection_deprecated.to_document_deprecated 0%nat)
         samples.chained_options
  = [("capped", b_bool true); ("size", b_int64 4096); ("flags", b_int32 16);
     ("validator", b_document [("qty", b_document [("$gte", b_int32 0)])]);
     ("validationLevel", b_utf8 "strict")].
Proof. reflexivity. Qed.

(** A newly constructed container, among others that have fields set,
    compiles to the empty document. *)
Lemma to_document_deprecated_wire_contract_witness :
  result (create_collection_deprecated.to_document_deprecated 3%nat)
         (after (create_collection_deprecated.create_collection_deprecated 3%nat)
                samples.chained_options)
  = empty_document.
Proof.
  apply (to_document_deprecated_wire_contract
           (after (create_collection_deprecated.create_collection_deprecated 3%nat)
                  samples.chained_options) 3%nat).
  reflexivity.
Defined.

Section CompilerKeys.
Import create_collection_deprecated.
Context {V : Type} `{validation_criteria.compiles V}.

(** A row under another key does not answer a lookup. *)
Lemma find_skip_field {A : Type} (key k : string) (encode : A -> bson_value)
    (x : option A) (d : document) :
  key <> k -> find k (wire_contract.field key encode x ++ d) = find k d.
Proof.
  intros Hne. destruct x as [v |]; simpl.
  - destruct (String.eqb_spec key k) as [Heq | _]; [contradiction | reflexivity].
  - reflexivity.
Qed.

(** Where a top-level key of the contract's document comes from. *)
Lemma in_keys_spec_document (k : string) (o : t V) :
  In k (keys (wire_contract.spec_document o)) ->
  In k wire_contract.own_keys
  /\ (k = "flags" -> _no_padding o <> None)
  \/ In k (keys (wire_contract.spliced (_validation o))).
Proof.
  unfold wire_contract.spec_document. rewrite !keys_app, !in_app_iff.
  intros [Hin | [Hin | [Hin | [Hin | [Hin | [Hin | Hin]]]]]];
    try (apply in_keys_field in Hin as [-> Hset]; left; split;
         [simpl; tauto | first [discriminate | intros _; exact Hset]]).
  now right.
Qed.

(** The rows of the container's own fields, without the spliced group. *)
Lemma spec_document_own (o : t V) :
  wire_contract.spec_document o
  = wire_contract.spec_document (assign_validation None o)
    ++ wire_contract.spliced (_validation o).
Proof.
  unfold wire_contract.spec_document; simpl.
  rewrite <- !app_assoc, app_nil_l. reflexivity.
Qed.

(** C2.  If the container's [no_padding] field holds [true], the compiled
    document's "flags" entry is the 32-bit integer 0x10; if it holds [false],
    the entry is 0x00; the same after a call of the setter with that value.
    If the field was never set, no top-level key of the compiled document is
    "flags", given that the validation sub-object (a class defined
    elsewhere in the driver), when there is one, does not itself compile to a "flags" key. *)
Theorem flags_translation (s : store (t V)) (this : addr) :
  let doc := result (to_document_deprecated this) s in
  (result (get_no_padding this) s = Some true
   -> find "flags" doc = Some (b_int32 0x10))
  /\ (result (get_no_padding this) s = Some false
      -> find "flags" doc = Some (b_int32 0x00))
  /\ (forall b : bool,
        find "flags"
             (result (to_document_deprecated this) (after (no_padding this b) s))
        = Some (b_int32 (if b then 0x10 else 0x00)))
  /\ (result (get_no_padding this) s = None
      -> (forall v, result (get_validation_criteria this) s = Some v
                    -> ~ In "flags" (keys (validation_criteria.to_document_deprecated v)))
      -> ~ In "flags" (keys doc)).
Proof.
  assert (Hset : forall (o : t V) (b : bool), _no_padding o = Some b ->
            find "flags" (compile o) = Some (b_int32 (if b then 0x10 else 0x00))).
  { intros o b Hpad. rewrite compile_spec_document.
    unfold wire_contract.spec_document.
    rewrite !find_skip_field by discriminate.
    rewrite Hpad. reflexivity. }
  intros doc. subst doc. rewrite to_document_deprecated_result.
  change (result (get_no_padding this) s) with (_no_padding (s this)).
  change (result (get_validation_criteria this) s) with (_validation (s this)).
  split; [| split; [| split]].
  - intros Hpad. exact (Hset _ true Hpad).
  - intros Hpad. exact (Hset _ false Hpad).
  - intros b. rewrite to_document_deprecated_result.
    apply Hset. unfold no_padding. rewrite setter_after_this. reflexivity.
  - intros Hpad Hsub Hin. rewrite compile_spec_document in Hin.
    apply in_keys_spec_document in Hin as [[_ Hflag] | Hin].
    + now apply Hflag.
    + destruct (_validation (s this)) as [v |] eqn:Hval; simpl in Hin.
      * exact (Hsub v eq_refl Hin).
      * exact Hin.
Qed.

(** C5.  If the container at [this] holds a validation sub-object [v], the
    compiled document is the rows of the container's own fields followed by
    the elements of [v]'s compiled document themselves: every element and
    every key of the sub-document is a top-level element or key of the
    parent, and no further key wraps them, the keys before them being wire
    keys of the container's own fields. *)
Theorem validation_is_flattened (s : store (t V)) (this : addr) (v : V) :
  result (get_validation_criteria this) s = Some v ->
  let doc := result (to_document_deprecated this) s in
  let sub := validation_criteria.to_document_deprecated v in
  incl sub doc
  /\ incl (keys sub) (keys doc)
  /\ exists own,
       doc = own ++ sub
       /\ incl (keys own) wire_contract.own_keys
       /\ own = result (to_document_deprecated this)
                       (after (assign this (assign_validation None)) s).
Proof.
  change (result (get_validation_criteria this) s) with (_validation (s this)).
  intros Hval doc sub.
  assert (Hdoc : doc = compile (assign_validation None (s this)) ++ sub).
  { subst doc sub. rewrite to_document_deprecated_result, !compile_spec_document.
    rewrite spec_document_own, Hval. reflexivity. }
  split; [| split].
  - rewrite Hdoc. apply incl_appr, incl_refl.
  - rewrite Hdoc, keys_app. apply incl_appr, incl_refl.
  - exists (compile (assign_validation None (s this))).
    split; [exact Hdoc | split].
    + intros k Hin. rewrite compile_spec_document in Hin.
      apply in_keys_spec_document in Hin as [[Hown _] | Hin].
      * exact Hown.
      * destruct Hin.
    + rewrite to_document_deprecated_result, after_assign_this. reflexivity.
Qed.

(** C8.  Two calls of [to_document_deprecated] on the same container, one
    after the other, return the same document; the call leaves the store,
    hence every field of the container, as it was; and what it returns
    depends on nothing but the container's fields: a container with the
    same fields, wherever it lives, compiles to the same document. *)
Theorem to_document_deprecated_deterministic (s : store (t V)) (this : addr) :
  let twice := (first <- to_document_deprecated this ;;
                second <- to_document_deprecated this ;;
                ret (first, second)) in
  fst (result twice s) = snd (result twice s)
  /\ after twice s = s
  /\ after (to_document_deprecated this) s = s
  /\ result (observe this) (after (to_document_deprecated this) s)
     = result (observe this) s
  /\ forall (s' : store (t V)) (a : addr),
       s' a = s this ->
       result (to_document_deprecated a) s'
       = result (to_document_deprecated this) s.
Proof.
  intros twice. subst twice.
  rewrite !result_bind, !after_bind.
  rewrite !to_document_deprecated_const.
  repeat split.
  intros s' a Hsame.
  rewrite !to_document_deprecated_result. now rewrite Hsame.
Qed.

(** C9.  [to_document] and [to_document_deprecated] are the same member
    function: on every store and receiver they return the same document,
    the receiver's compiled fields, and leave the same store. *)
Theorem to_document_is_to_document_deprecated (s : store (t V)) (this : addr) :
  to_document this s = to_document_deprecated this s
  /\ result (to_document this) s = wire_contract.spec_document (s this)
  /\ after (to_document this) s = s.
Proof.
  unfold to_document.
  split; [reflexivity | split].
  - rewrite to_document_deprecated_result. apply compile_spec_document.
  - apply to_document_deprecated_const.
Qed.

End CompilerKeys.

(** The three cases of the flag on concrete containers; the unset one holds
    a validation sub-object, whose keys are "validator" and
    "validationLevel". *)
Lemma flags_translation_witness :
  find "flags"
       (result (create_collection_deprecated.to_document_deprecated 0%nat)
               samples.chained_options)
  = Some (b_int32 16)
  /\ find "flags"
          (result (create_collection_deprecated.to_document_deprecated 0%nat)
                  (after (create_collection_deprecated.no_padding 0%nat false)
                         samples.validated_options))
     = Some (b_int32 0)
  /\ ~ In "flags"
          (keys (result (create_collection_deprecated.to_document_deprecated 0%nat)
                        samples.validated_options)).
Proof.
  split; [| split].
  - destruct (flags_translation samples.chained_options 0%nat) as [Htrue _].
    apply Htrue. reflexivity.
  - destruct (flags_translation
                (after (create_collection_deprecated.no_padding 0%nat false)
                       samples.validated_options) 0%nat) as [_ [Hfalse _]].
    apply Hfalse. reflexivity.
  - destruct (flags_translation samples.validated_options 0%nat)
      as [_ [_ [_ Hunset]]].
    apply Hunset.
    + reflexivity.
    + intros v _ Hin. simpl in Hin.
      destruct Hin as [Hin | [Hin | []]]; discriminate Hin.
Defined.

(** The two keys of the sample sub-object are top-level keys of the parent. *)
Lemma validation_is_flattened_witness :
  incl (keys samples.sample_validation_document)
       (keys (result (create_collection_deprecated.to_document_deprecated 0%nat)
                     samples.chained_options)).
Proof.
  destruct (validation_is_flattened samples.chained_options 0%nat
              samples.strict_rule eq_refl) as [_ [Hkeys _]].
  exact Hkeys.
Defined.

(** A copy of the container at another address, in another store, compiles
    to the same document. *)
Lemma to_document_deprecated_deterministic_witness :
  result (create_collection_deprecated.to_document_deprecated 5%nat)
         (after (construct 5%nat (samples.chained_options 0%nat))
                samples.fresh_options)
  = result (create_collection_deprecated.to_document_deprecated 0%nat)
           samples.chained_options.
Proof.
  destruct (to_document_deprecated_deterministic samples.chained_options 0%nat)
    as [_ [_ [_ [_ Hsame]]]].
  apply Hsame. reflexivity.
Defined.

(** ** The update model *)

Section UpdateOne.
Import update_one.
Context {hint_t P : Type} `{pipeline.renders P}.

Lemma update_one_observe_result (s : store (t hint_t)) (this : addr) :
  result (observe this) s
  = (_filter (s this), _update (s this), _collation (s this), _hint (s this),
     _upsert (s this), _array_filters (s this)).
Proof. reflexivity. Qed.

Lemma update_result (s : store (t hint_t)) (this : addr) :
  result (update this) s = _update (s this).
Proof. reflexivity. Qed.

Lemma filter_result (s : store (t hint_t)) (this : addr) :
  result (filter this) s = _filter (s this).
Proof. reflexivity. Qed.

(** No initializer list of tags has an element. *)
Lemma empty_doc_tags_nil (tags : list _empty_doc_tag) : tags = [].
Proof. destruct tags as [| tag tags]; [reflexivity | destruct tag]. Qed.

(** C3.  For every filter and every pipeline [p], the update stored by the
    pipeline constructor is the one stored by the document constructor when
    it is given the array-document that [p] renders: the two objects are the
    same, member for member, and [update()] returns the same value.  Given
    the rendered array as a borrowed view instead, [update()] returns a
    value that compares equal, with the same content. *)
Theorem update_one_pipeline_equivalence (s : store (t hint_t)) (this : addr)
    (filter : document_view_or_value) (p : P) :
  let rendered := document_of_array (pipeline.view_array p) in
  let by_pipeline := update_one_pipeline this filter p in
  let by_document := update_one this filter (owned (document_value rendered)) in
  let by_view := update_one this filter (borrowed rendered) in
  result (by_pipeline ;; update this) s = result (by_document ;; update this) s
  /\ after by_pipeline s this = after by_document s this
  /\ view_or_value_eq (result (by_pipeline ;; update this) s)
                      (result (by_view ;; update this) s)
  /\ view (result (by_pipeline ;; update this) s) = rendered.
Proof.
  intros rendered by_pipeline by_document by_view.
  subst by_pipeline by_document by_view.
  unfold view_or_value_eq.
  rewrite !result_bind, !update_result.
  unfold update_one_pipeline, update_one.update_one.
  rewrite !after_construct_this.
  repeat split.
Qed.

(** C4.  For every filter, the constructor taking the empty literal builds
    an object (it has no failing outcome) whose [update()] is the
    default-constructed document value, which views the empty document; the
    filter is stored as given.  The literal can only be the empty list. *)
Theorem update_one_empty_is_default (s : store (t hint_t)) (this : addr)
    (filter : document_view_or_value) (tags : list _empty_doc_tag) :
  let built := update_one_empty this filter tags in
  result (built ;; update this) s = document_view_or_value_default
  /\ view (result (built ;; update this) s) = empty_document
  /\ result (built ;; update_one.filter this) s = filter
  /\ tags = [].
Proof.
  intros built. subst built.
  rewrite !result_bind, update_result, filter_result.
  unfold update_one_empty. rewrite after_construct_this. simpl.
  repeat split. apply empty_doc_tags_nil.
Qed.

End UpdateOne.

(** The pipeline sample, rendered: an owned document with keys "0" and "1". *)
Example sample_pipeline_update :
  result (update_one.update_one_pipeline 1%nat samples.sample_filter
            samples.match_then_set ;;
          update_one.update 1%nat) samples.blank_updates
  = owned [("0", b_document [("$match", b_document [("a", b_int32 1)])]);
           ("1", b_document [("$set", b_document [("b", b_int32 2)])])].
Proof. reflexivity. Qed.

(** The empty literal, on a concrete store. *)
Example sample_empty_update :
  result (update_one.update_one_empty 1%nat samples.sample_filter [] ;;
          update_one.observe 1%nat) samples.blank_updates
  = (samples.sample_filter, borrowed [], None, None, None, None).
Proof. reflexivity. Qed.

(** ** The pool options *)

Section Pool.
Context {C : Type} `{client.default_constructible C}.

(** C10.  A pool constructed from client options [c] returns [c] from
    [client_opts()]; a pool constructed with no argument returns the
    default-constructed client options; [client_opts()] changes nothing; and
    a pool object is nothing more than its client options: constructing it
    again from what [client_opts()] returns gives the same object. *)
Theorem pool_client_opts (s : store (pool.t C)) (this : addr) (c : C) :
  result (pool.pool this c ;; pool.client_opts this) s = c
  /\ result (pool.pool_default this ;; pool.client_opts this) s = client.client
  /\ after (pool.client_opts this) s = s
  /\ after (pool.pool this (result (pool.client_opts this) s)) s this = s this.
Proof.
  split; [| split; [| split]].
  - rewrite result_bind. unfold pool.client_opts, pool.pool.
    rewrite result_load_then_ret, after_construct_this. reflexivity.
  - rewrite result_bind. unfold pool.client_opts, pool.pool_default, pool.pool.
    rewrite result_load_then_ret, after_construct_this. reflexivity.
  - apply load_then_ret_const.
  - unfold pool.pool. rewrite after_construct_this.
    unfold pool.client_opts. rewrite result_load_then_ret.
    now destruct (s this).
Qed.

End Pool.

Example sample_pool :
  result (pool.pool 4%nat "shop" ;; pool.client_opts 4%nat) samples.blank_pools
  = "shop"
  /\ result (pool.pool_default 4%nat ;; pool.client_opts 4%nat)
            (after (pool.pool 4%nat "shop") samples.blank_pools)
     = "".
Proof. split; reflexivity. Qed.

(** ** Setters, getters and constructors of both containers *)

Create HintDb setters discriminated.

#[local] Hint Unfold
  update_one.collation update_one.hint update_one.upsert update_one.array_filters
  create_collection_deprecated.capped create_collection_deprecated.collation
  create_collection_deprecated.max create_collection_deprecated.no_padding
  create_collection_deprecated.size create_collection_deprecated.storage_engine
  create_collection_deprecated.validation_criteria : setters.

(** Each setter is one assignment followed by [return *this]; the three
    parts of its contract follow from the store facts. *)
Ltac prove_setter_contract :=
  unfold setter_contract, returns_self, frames; autounfold with setters;
  split; [| split];
  [ intros this v s; apply setter_result
  | intros this v s a Hne; apply setter_after_other; exact Hne
  | intros this v s;
    rewrite ?update_one_observe_result, ?observe_result, setter_after_this;
    reflexivity ].

Section Containers.
Context {hint_t V P : Type} `{pipeline.renders P}.

(** C6.  For each setter of [update_one] (collation, hint, upsert,
    array_filters) and of [create_collection_deprecated] (capped, collation,
    max, no_padding, size, storage_engine, validation_criteria), and every
    value [v]: the call returns the receiver; afterwards the getter of that
    field reports [Some v] and every other getter, [filter()] and
    [update()] included, answers as before; objects other than the receiver
    are unchanged. *)
Theorem setters_keep_their_contract :
  (setter_contract (@update_one.collation hint_t) update_one.observe
     (fun v '(filter, update, _, hint, upsert, array_filters) =>
        (filter, update, Some v, hint, upsert, array_filters))
   /\ setter_contract (@update_one.hint hint_t) update_one.observe
        (fun v '(filter, update, collation, _, upsert, array_filters) =>
           (filter, update, collation, Some v, upsert, array_filters))
   /\ setter_contract (@update_one.upsert hint_t) update_one.observe
        (fun v '(filter, update, collation, hint, _, array_filters) =>
           (filter, update, collation, hint, Some v, array_filters))
   /\ setter_contract (@update_one.array_filters hint_t) update_one.observe
        (fun v '(filter, update, collation, hint, upsert, _) =>
           (filter, update, collation, hint, upsert, Some v)))
  /\
  (setter_contract (@create_collection_deprecated.capped V)
     create_collection_deprecated.observe
     (fun v '(_, collation, max, no_padding, size, storage_engine, validation) =>
        (Some v, collation, max, no_padding, size, storage_engine, validation))
   /\ setter_contract (@create_collection_deprecated.collation V)
        create_collection_deprecated.observe
        (fun v '(capped, _, max, no_padding, size, storage_engine, validation) =>
           (capped, Some v, max, no_padding, size, storage_engine, validation))
   /\ setter_contract (@create_collection_deprecated.max V)
        create_collection_deprecated.observe
        (fun v '(capped, collation, _, no_padding, size, storage_engine, validation) =>
           (capped, collation, Some v, no_padding, size, storage_engine, validation))
   /\ setter_contract (@create_collection_deprecated.no_padding V)
        create_collection_deprecated.observe
        (fun v '(capped, collation, max, _, size, storage_engine, validation) =>
           (capped, collation, max, Some v, size, storage_engine, validation))
   /\ setter_contract (@create_collection_deprecated.size V)
        create_collection_deprecated.observe
        (fun v '(capped, collation, max, no_padding, _, storage_engine, validation) =>
           (capped, collation, max, no_padding, Some v, storage_engine, validation))
   /\ setter_contract (@create_collection_deprecated.storage_engine V)
        create_collection_deprecated.observe
        (fun v '(capped, collation, max, no_padding, size, _, validation) =>
           (capped, collation, max, no_padding, size, Some v, validation))
   /\ setter_contract (@create_collection_deprecated.validation_criteria V)
        create_collection_deprecated.observe
        (fun v '(capped, collation, max, no_padding, size, storage_engine, _) =>
           (capped, collation, max, no_padding, size, storage_engine, Some v))).
Proof.
  split.
  - repeat match goal with |- _ /\ _ => split end; prove_setter_contract.
  - repeat match goal with |- _ /\ _ => split end; prove_setter_contract.
Qed.

(** C7.  Right after any of its constructors has run, whatever the filter
    and update arguments, an [update_one] reports collation, hint, upsert
    and array_filters as absent (and the filter and update it was given); a
    newly constructed [create_collection_deprecated] reports capped,
    collation, max, no_padding, size, storage_engine and validation as
    absent. *)
Theorem fresh_containers_report_absent
    (su : store (update_one.t hint_t)) (sc : store (create_collection_deprecated.t V))
    (this : addr) (filter update : document_view_or_value) (p : P)
    (tags : list update_one._empty_doc_tag) :
  result (update_one.update_one this filter update ;; update_one.observe this) su
  = (filter, update, None, None, None, None)
  /\ result (update_one.update_one_pipeline this filter p ;;
             update_one.observe this) su
     = (filter, owned (document_value (document_of_array (pipeline.view_array p))),
        None, None, None, None)
  /\ result (update_one.update_one_empty this filter tags ;;
             update_one.observe this) su
     = (filter, document_view_or_value_default, None, None, None, None)
  /\ result (create_collection_deprecated.create_collection_deprecated this ;;
             create_collection_deprecated.observe this) sc
     = (None, None, None, None, None, None, None).
Proof.
  rewrite !result_bind, !update_one_observe_result, observe_result.
  unfold update_one.update_one, update_one.update_one_pipeline,
    update_one.update_one_empty,
    create_collection_deprecated.create_collection_deprecated.
  rewrite !after_construct_this.
  repeat split.
Qed.

End Containers.

(** On concrete stores: a setter called on one object leaves its neighbour
    alone, and the getters see the value it stored. *)
Lemma setters_keep_their_contract_witness :
  after (create_collection_deprecated.capped 0%nat true) samples.fresh_options 1%nat
  = samples.fresh_options 1%nat
  /\ result (update_one.observe 2%nat)
            (after (update_one.upsert 2%nat true) samples.blank_updates)
     = (samples.sample_filter, document_view_or_value_default,
        None, None, Some true, None).
Proof.
  destruct (@setters_keep_their_contract samples.sample_hint
              samples.sample_validation)
    as [[_ [_ [Hupsert _]]] [Hcapped _]].
  split.
  - destruct Hcapped as [_ [Hframe _]]. apply Hframe. discriminate.
  - destruct Hupsert as [_ [_ Hobserve]]. rewrite Hobserve. reflexivity.
Defined.

(** Chaining: the reference a setter returns is the receiver of the next. *)
Example chained_update :
  result (r <- update_one.collation 2%nat samples.sample_collation ;;
          r <- update_one.upsert r true ;;
          r <- update_one.hint r "by_id" ;;
          update_one.observe r) samples.blank_updates
  = (samples.sample_filter, document_view_or_value_default,
     Some samples.sample_collation, Some "by_id", Some true, None).
Proof. reflexivity. Qed.

(* ================================================================== *)
(** * Part III: further properties of the same code *)
(* ================================================================== *)

(** ** Lookups in the compiled document *)

Section Lookups.
Import create_collection_deprecated.
Context {V : Type} `{validation_criteria.compiles V}.

(** A row under the key looked up answers when its field is present. *)
Lemma find_hit_field {A : Type} (k : string) (encode : A -> bson_value)
    (x : option A) (d : document) :
  find k (wire_contract.field k encode x ++ d) = lookup.field_or encode x (find k d).
Proof.
  destruct x as [v |]; simpl.
  - now rewrite String.eqb_refl.
  - reflexivity.
Qed.

Lemma not_in_cons_ne {A : Type} (k x : A) (l : list A) :
  ~ In k (x :: l) -> x <> k /\ ~ In k l.
Proof. intros Hnot. split; intros Hbad; apply Hnot; [now left | now right]. Qed.

Lemma without_key_app (k : string) (d1 d2 : document) :
  lookup.without_key k (d1 ++ d2) = lookup.without_key k d1 ++ lookup.without_key k d2.
Proof. apply filter_app. Qed.

Lemma without_key_field_same {A : Type} (k : string) (encode : A -> bson_value)
    (x : option A) :
  lookup.without_key k (wire_contract.field k encode x) = [].
Proof.
  destruct x as [v |]; simpl.
  - now rewrite String.eqb_refl.
  - reflexivity.
Qed.

(** The document a setter's caller gets next, through either entry point. *)
Lemma document_after_setter (f : t V -> t V) (s : store (t V)) (this : addr) :
  result (r <- (assign this f ;; ret this) ;; to_document r) s
  = wire_contract.spec_document (f (s this)).
Proof.
  rewrite result_bind, setter_result. unfold to_document.
  rewrite to_document_deprecated_result, setter_after_this.
  apply compile_spec_document.
Qed.

(** X1.  Whatever the container held before and whatever its validation
    sub-object compiles to: right after [capped(b)], [collation(c)],
    [max(n)], [size(n)] or [storage_engine(c)], looking the field's wire
    key up in the document that [to_document] returns finds the value just
    set, in its wire encoding. *)
Theorem setters_round_trip_through_document (s : store (t V)) (this : addr) :
  (forall b : bool,
      find "capped" (result (r <- capped this b ;; to_document r) s)
      = Some (b_bool b))
  /\ (forall c : document_view_or_value,
        find "collation" (result (r <- collation this c ;; to_document r) s)
        = Some (b_document (view c)))
  /\ (forall n : int64,
        find "max" (result (r <- max this n ;; to_document r) s)
        = Some (b_int64 n))
  /\ (forall n : int64,
        find "size" (result (r <- size this n ;; to_document r) s)
        = Some (b_int64 n))
  /\ (forall c : document_view_or_value,
        find "storageEngine"
             (result (r <- storage_engine this c ;; to_document r) s)
        = Some (b_document (view c))).
Proof.
  repeat match goal with |- _ /\ _ => split end; intros v;
    autounfold with setters; rewrite document_after_setter;
    unfold wire_contract.spec_document;
    rewrite ?find_skip_field by discriminate;
    rewrite find_hit_field; reflexivity.
Qed.

(** X2.  A lookup of one of the six wire keys in the compiled document finds
    the container's own field when it is present; when it is absent the
    lookup falls through to the pairs of the validation sub-object, as does
    a lookup of any other key.  With no sub-object such a lookup finds
    nothing. *)
Theorem lookup_in_compiled_document (s : store (t V)) (this : addr) :
  let o := s this in
  let doc := result (to_document_deprecated this) s in
  let sub := wire_contract.spliced (_validation o) in
  find "capped" doc = lookup.field_or b_bool (_capped o) (find "capped" sub)
  /\ find "collation" doc
     = lookup.field_or wire_contract.as_document (_collation o) (find "collation" sub)
  /\ find "max" doc = lookup.field_or b_int64 (_max_documents o) (find "max" sub)
  /\ find "size" doc = lookup.field_or b_int64 (_max_size o) (find "size" sub)
  /\ find "flags" doc
     = lookup.field_or wire_contract.flag (_no_padding o) (find "flags" sub)
  /\ find "storageEngine" doc
     = lookup.field_or wire_contract.as_document (_storage_engine_opts o)
         (find "storageEngine" sub)
  /\ (forall k, ~ In k wire_contract.own_keys -> find k doc = find k sub)
  /\ (forall k, ~ In k wire_contract.own_keys -> _validation o = None ->
                find k doc = None).
Proof.
  intros o doc sub. subst doc.
  rewrite to_document_deprecated_result. fold o.
  rewrite compile_spec_document. unfold wire_contract.spec_document. fold sub.
  assert (Hother : forall k, ~ In k wire_contract.own_keys ->
            find k (wire_contract.field "capped" b_bool (_capped o)
                    ++ wire_contract.field "collation" wire_contract.as_document
                         (_collation o)
                    ++ wire_contract.field "max" b_int64 (_max_documents o)
                    ++ wire_contract.field "size" b_int64 (_max_size o)
                    ++ wire_contract.field "flags" wire_contract.flag (_no_padding o)
                    ++ wire_contract.field "storageEngine" wire_contract.as_document
                         (_storage_engine_opts o)
                    ++ sub)
            = find k sub).
  { intros k Hnot. unfold wire_contract.own_keys in Hnot.
    repeat (apply not_in_cons_ne in Hnot as [? Hnot]).
    now rewrite !find_skip_field by assumption. }
  repeat match goal with |- _ /\ _ => split end;
    try (rewrite ?find_skip_field by discriminate;
         rewrite find_hit_field;
         rewrite ?find_skip_field by discriminate; reflexivity).
  - exact Hother.
  - intros k Hnot Hnone. rewrite (Hother k Hnot).
    subst sub. rewrite Hnone. reflexivity.
Qed.

(** X3.  A setter changes nothing of the compiled document but the element
    under its own wire key: with the elements under that key left out, the
    document after the call is the document before it.  Setting the
    validation sub-object leaves the rows before it as they were and
    replaces the spliced pairs. *)
Theorem setters_touch_only_their_key (s : store (t V)) (this : addr) :
  let doc := fun s' => result (to_document_deprecated this) s' in
  (forall v, lookup.without_key "capped" (doc (after (capped this v) s))
             = lookup.without_key "capped" (doc s))
  /\ (forall v, lookup.without_key "collation" (doc (after (collation this v) s))
                = lookup.without_key "collation" (doc s))
  /\ (forall v, lookup.without_key "max" (doc (after (max this v) s))
                = lookup.without_key "max" (doc s))
  /\ (forall v, lookup.without_key "size" (doc (after (size this v) s))
                = lookup.without_key "size" (doc s))
  /\ (forall v, lookup.without_key "flags" (doc (after (no_padding this v) s))
                = lookup.without_key "flags" (doc s))
  /\ (forall v, lookup.without_key "storageEngine"
                  (doc (after (storage_engine this v) s))
                = lookup.without_key "storageEngine" (doc s))
  /\ (forall v, exists own,
         doc s = own ++ wire_contract.spliced (_validation (s this))
         /\ doc (after (validation_criteria this v) s)
            = own ++ validation_criteria.to_document_deprecated v).
Proof.
  intros doc. subst doc. cbv beta.
  repeat match goal with |- _ /\ _ => split end; intros v;
    autounfold with setters;
    rewrite !to_document_deprecated_result, ?setter_after_this,
      !compile_spec_document;
    try (unfold wire_contract.spec_document;
         cbn [_capped _collation _max_documents _no_padding _max_size
              _storage_engine_opts _validation assign_capped assign_collation
              assign_max_documents assign_no_padding assign_max_size
              assign_storage_engine_opts];
         rewrite !without_key_app, !without_key_field_same; reflexivity).
  exists (wire_contract.spec_document (assign_validation None (s this))).
  split.
  - apply spec_document_own.
  - rewrite spec_document_own. reflexivity.
Qed.

End Lookups.

(** ** How setter calls compose *)

Section AssignFacts.
Context {T : Type}.

Lemma assign_last_wins (f1 f2 : T -> T) :
  (forall o, f2 (f1 o) = f2 o) ->
  forall this s a,
    after (assign this f2 ;; ret this) (after (assign this f1 ;; ret this) s) a
    = after (assign this f2 ;; ret this) s a.
Proof.
  intros Hwins this s a. unfold after, bind, assign, ret; simpl.
  rewrite Nat.eqb_refl.
  destruct (Nat.eqb a this); [apply Hwins | reflexivity].
Qed.

Lemma assign_commute (f g : T -> T) :
  (forall o, g (f o) = f (g o)) ->
  forall this1 this2 s a,
    after (assign this2 g ;; ret this2) (after (assign this1 f ;; ret this1) s) a
    = after (assign this1 f ;; ret this1) (after (assign this2 g ;; ret this2) s) a.
Proof.
  intros Hcomm this1 this2 s a. unfold after, bind, assign, ret; simpl.
  destruct (Nat.eqb_spec a this2) as [Ha2 | Ha2];
    destruct (Nat.eqb_spec a this1) as [Ha1 | Ha1].
  - subst this1 this2. rewrite !Nat.eqb_refl. apply Hcomm.
  - subst this2.
    destruct (Nat.eqb_spec a this1) as [Heq | _]; [contradiction | reflexivity].
  - subst this1.
    destruct (Nat.eqb_spec a this2) as [Heq | _]; [contradiction | reflexivity].
  - reflexivity.
Qed.

End AssignFacts.

Ltac prove_last_wins :=
  unfold chains.last_wins; autounfold with setters;
  intros this v1 v2 s a; apply assign_last_wins; intros o; reflexivity.

Ltac prove_commute :=
  unfold chains.commute; autounfold with setters;
  intros this1 this2 v w s a; apply assign_commute; intros o; reflexivity.

Section Composition.
Context {hint_t V : Type}.

(** X4.  Calling one setter twice in a row leaves exactly what the second
    call alone would leave: the later value replaces the earlier one, in all
    eleven setters. *)
Theorem setters_last_call_wins :
  (chains.last_wins (@update_one.collation hint_t)
   /\ chains.last_wins (@update_one.hint hint_t)
   /\ chains.last_wins (@update_one.upsert hint_t)
   /\ chains.last_wins (@update_one.array_filters hint_t))
  /\ (chains.last_wins (@create_collection_deprecated.capped V)
      /\ chains.last_wins (@create_collection_deprecated.collation V)
      /\ chains.last_wins (@create_collection_deprecated.max V)
      /\ chains.last_wins (@create_collection_deprecated.no_padding V)
      /\ chains.last_wins (@create_collection_deprecated.size V)
      /\ chains.last_wins (@create_collection_deprecated.storage_engine V)
      /\ chains.last_wins (@create_collection_deprecated.validation_criteria V)).
Proof.
  repeat match goal with |- _ /\ _ => split end; prove_last_wins.
Qed.

(** X5.  Setters of two different fields can be called in either order, on
    one receiver or on two: the store they leave is the same.  This holds
    for the six pairs of [update_one] setters and for the pairs of
    [create_collection_deprecated] setters. *)
Theorem setters_of_different_fields_commute :
  (chains.commute (@update_one.collation hint_t) (@update_one.hint hint_t)
   /\ chains.commute (@update_one.collation hint_t) (@update_one.upsert hint_t)
   /\ chains.commute (@update_one.collation hint_t) (@update_one.array_filters hint_t)
   /\ chains.commute (@update_one.hint hint_t) (@update_one.upsert hint_t)
   /\ chains.commute (@update_one.hint hint_t) (@update_one.array_filters hint_t)
   /\ chains.commute (@update_one.upsert hint_t) (@update_one.array_filters hint_t))
  /\ (chains.commute (@create_collection_deprecated.capped V)
        (@create_collection_deprecated.collation V)
      /\ chains.commute (@create_collection_deprecated.capped V)
           (@create_collection_deprecated.max V)
      /\ chains.commute (@create_collection_deprecated.capped V)
           (@create_collection_deprecated.no_padding V)
      /\ chains.commute (@create_collection_deprecated.capped V)
           (@create_collection_deprecated.size V)
      /\ chains.commute (@create_collection_deprecated.capped V)
           (@create_collection_deprecated.storage_engine V)
      /\ chains.commute (@create_collection_deprecated.capped V)
           (@create_collection_deprecated.validation_criteria V)
      /\ chains.commute (@create_collection_deprecated.collation V)
           (@create_collection_deprecated.max V)
      /\ chains.commute (@create_collection_deprecated.collation V)
           (@create_collection_deprecated.no_padding V)
      /\ chains.commute (@create_collection_deprecated.collation V)
           (@create_collection_deprecated.size V)
      /\ chains.commute (@create_collection_deprecated.collation V)
           (@create_collection_deprecated.storage_engine V)
      /\ chains.commute (@create_collection_deprecated.collation V)
           (@create_collection_deprecated.validation_criteria V)
      /\ chains.commute (@create_collection_deprecated.max V)
           (@create_collection_deprecated.no_padding V)
      /\ chains.commute (@create_collection_deprecated.max V)
           (@create_collection_deprecated.size V)
      /\ chains.commute (@create_collection_deprecated.max V)
           (@create_collection_deprecated.storage_engine V)
      /\ chains.commute (@create_collection_deprecated.max V)
           (@create_collection_deprecated.validation_criteria V)
      /\ chains.commute (@create_collection_deprecated.no_padding V)
           (@create_collection_deprecated.size V)
      /\ chains.commute (@create_collection_deprecated.no_padding V)
           (@create_collection_deprecated.storage_engine V)
      /\ chains.commute (@create_collection_deprecated.no_padding V)
           (@create_collection_deprecated.validation_criteria V)
      /\ chains.commute (@create_collection_deprecated.size V)
           (@create_collection_deprecated.storage_engine V)
      /\ chains.commute (@create_collection_deprecated.size V)
           (@create_collection_deprecated.validation_criteria V)
      /\ chains.commute (@create_collection_deprecated.storage_engine V)
           (@create_collection_deprecated.validation_criteria V)).
Proof.
  repeat match goal with |- _ /\ _ => split end; prove_commute.
Qed.

End Composition.

(** ** Chains of setter calls *)

Section ChainFacts.
Context {T C : Type}.
Variable call : addr -> C -> method T addr.
Hypothesis call_returns_self : forall r c s, result (call r c) s = r.
Hypothesis call_frames : forall r c s a, a <> r -> after (call r c) s a = s a.

Lemma chain_cons (r : addr) (c : C) (cs : list C) (s : store T) :
  chains.chain call r (c :: cs) s = chains.chain call r cs (after (call r c) s).
Proof.
  simpl. unfold bind. fold (result (call r c) s). fold (after (call r c) s).
  now rewrite call_returns_self.
Qed.

Lemma chain_result (cs : list C) (r : addr) (s : store T) :
  result (chains.chain call r cs) s = r.
Proof.
  revert s. induction cs as [| c cs IH]; intros s.
  - reflexivity.
  - unfold result. rewrite chain_cons. apply IH.
Qed.

Lemma chain_after_other (cs : list C) (r a : addr) (s : store T) :
  a <> r -> after (chains.chain call r cs) s a = s a.
Proof.
  intros Hne. revert s. induction cs as [| c cs IH]; intros s.
  - reflexivity.
  - unfold after. rewrite chain_cons.
    fold (after (chains.chain call r cs) (after (call r c) s)).
    rewrite IH. now apply call_frames.
Qed.

(** A field that every call either sets or leaves alone holds, after the
    chain, the argument of the last call that set it. *)
Lemma chain_field {W : Type} (proj : T -> option W) (sel : C -> option W) :
  (forall r c s, proj (after (call r c) s r) = chains.or_else (sel c) (proj (s r))) ->
  forall cs r s,
    proj (after (chains.chain call r cs) s r)
    = chains.or_else (chains.last_set sel cs) (proj (s r)).
Proof.
  intros Hcall cs r. induction cs as [| c cs IH]; intros s.
  - reflexivity.
  - unfold after. rewrite chain_cons.
    fold (after (chains.chain call r cs) (after (call r c) s)).
    rewrite IH, Hcall. simpl.
    now destruct (chains.last_set sel cs).
Qed.

(** A member that no call assigns is the same after the chain. *)
Lemma chain_fixed {A : Type} (proj : T -> A) :
  (forall r c s, proj (after (call r c) s r) = proj (s r)) ->
  forall cs r s, proj (after (chains.chain call r cs) s r) = proj (s r).
Proof.
  intros Hcall cs r. induction cs as [| c cs IH]; intros s.
  - reflexivity.
  - unfold after. rewrite chain_cons.
    fold (after (chains.chain call r cs) (after (call r c) s)).
    now rewrite IH, Hcall.
Qed.

End ChainFacts.

Section UpdateOneChains.
Import update_one.
Context {hint_t : Type}.

Lemma update_one_call_returns_self (r : addr) (c : chains.update_one_call hint_t)
    (s : store (t hint_t)) :
  result (chains.update_one_call_on r c) s = r.
Proof. now destruct c. Qed.

Lemma update_one_call_frames (r : addr) (c : chains.update_one_call hint_t)
    (s : store (t hint_t)) (a : addr) :
  a <> r -> after (chains.update_one_call_on r c) s a = s a.
Proof. intros Hne. destruct c; now apply setter_after_other. Qed.

Lemma update_one_call_after (r : addr) (c : chains.update_one_call hint_t)
    (s : store (t hint_t)) :
  after (chains.update_one_call_on r c) s r
  = match c with
    | chains.uo_collation v => assign_collation hint_t (Some v) (s r)
    | chains.uo_hint v => assign_hint hint_t (Some v) (s r)
    | chains.uo_upsert v => assign_upsert hint_t (Some v) (s r)
    | chains.uo_array_filters v => assign_array_filters hint_t (Some v) (s r)
    end.
Proof. destruct c; apply setter_after_this. Qed.

(** X6.  However many setters are chained on an [update_one], and in
    whatever order: the chain returns the object it started on; [filter()]
    and [update()] answer as before; each optional field holds the argument
    of the last call of its setter, or what it held before when the chain
    has no such call, so that a field once present never becomes absent;
    and no other object changes. *)
Theorem update_one_chain (s : store (t hint_t)) (this : addr)
    (cs : list (chains.update_one_call hint_t)) :
  let run := chains.chain chains.update_one_call_on this cs in
  result run s = this
  /\ result (r <- run ;; observe r) s
     = (let '(filter, update, collation, hint, upsert, array_filters) :=
          result (observe this) s in
        (filter, update,
         chains.or_else (chains.last_set chains.uo_collation_of cs) collation,
         chains.or_else (chains.last_set chains.uo_hint_of cs) hint,
         chains.or_else (chains.last_set chains.uo_upsert_of cs) upsert,
         chains.or_else (chains.last_set chains.uo_array_filters_of cs) array_filters))
  /\ (forall a, a <> this -> after run s a = s a).
Proof.
  intros run. subst run.
  split; [| split].
  - apply chain_result, update_one_call_returns_self.
  - rewrite result_bind, (chain_result _ update_one_call_returns_self).
    rewrite !update_one_observe_result.
    rewrite (chain_fixed _ update_one_call_returns_self _filter),
      (chain_fixed _ update_one_call_returns_self _update),
      (chain_field _ update_one_call_returns_self _collation chains.uo_collation_of),
      (chain_field _ update_one_call_returns_self _hint chains.uo_hint_of),
      (chain_field _ update_one_call_returns_self _upsert chains.uo_upsert_of),
      (chain_field _ update_one_call_returns_self _array_filters
         chains.uo_array_filters_of);
      try reflexivity;
      intros r c s'; rewrite update_one_call_after; now destruct c.
  - intros a Hne.
    now apply (chain_after_other _ update_one_call_returns_self update_one_call_frames).
Qed.

End UpdateOneChains.

Section OptionsChains.
Import create_collection_deprecated.
Context {V : Type} `{validation_criteria.compiles V}.

Lemma options_call_returns_self (r : addr) (c : chains.options_call V)
    (s : store (t V)) :
  result (chains.options_call_on r c) s = r.
Proof. now destruct c. Qed.

Lemma options_call_frames (r : addr) (c : chains.options_call V)
    (s : store (t V)) (a : addr) :
  a <> r -> after (chains.options_call_on r c) s a = s a.
Proof. intros Hne. destruct c; now apply setter_after_other. Qed.

Lemma options_call_after (r : addr) (c : chains.options_call V) (s : store (t V)) :
  after (chains.options_call_on r c) s r
  = match c with
    | chains.cc_capped v => assign_capped V (Some v) (s r)
    | chains.cc_collation v => assign_collation V (Some v) (s r)
    | chains.cc_max v => assign_max_documents V (Some v) (s r)
    | chains.cc_no_padding v => assign_no_padding V (Some v) (s r)
    | chains.cc_size v => assign_max_size V (Some v) (s r)
    | chains.cc_storage_engine v => assign_storage_engine_opts V (Some v) (s r)
    | chains.cc_validation_criteria v => assign_validation (Some v) (s r)
    end.
Proof. destruct c; apply setter_after_this. Qed.

Lemma options_chain_object (cs : list (chains.options_call V)) (this : addr)
    (s : store (t V)) :
  after (chains.chain chains.options_call_on this cs) s this
  = chains.options_after cs (s this).
Proof.
  unfold chains.options_after.
  rewrite <- (chain_field _ options_call_returns_self _capped chains.cc_capped_of),
    <- (chain_field _ options_call_returns_self _collation chains.cc_collation_of),
    <- (chain_field _ options_call_returns_self _max_documents chains.cc_max_of),
    <- (chain_field _ options_call_returns_self _no_padding chains.cc_no_padding_of),
    <- (chain_field _ options_call_returns_self _max_size chains.cc_size_of),
    <- (chain_field _ options_call_returns_self _storage_engine_opts
          chains.cc_storage_engine_of),
    <- (chain_field _ options_call_returns_self _validation
          chains.cc_validation_criteria_of);
    try (intros r c s'; rewrite options_call_after; now destruct c).
  now destruct (after (chains.chain chains.options_call_on this cs) s this).
Qed.

(** X7.  However many setters are chained on a
    [create_collection_deprecated], and in whatever order: the chain returns
    the object it started on, which then holds, field by field, the argument
    of the last call of that field's setter, or what it held before; the
    document [to_document] returns next is the wire document of exactly those
    fields; and the documents of other objects are what they were. *)
Theorem options_chain (s : store (t V)) (this : addr)
    (cs : list (chains.options_call V)) :
  let run := chains.chain chains.options_call_on this cs in
  result run s = this
  /\ after run s this = chains.options_after cs (s this)
  /\ result (r <- run ;; to_document r) s
     = wire_contract.spec_document (chains.options_after cs (s this))
  /\ (forall a, a <> this ->
        result (to_document a) (after run s) = result (to_document a) s).
Proof.
  intros run. subst run.
  split; [| split; [| split]].
  - apply chain_result, options_call_returns_self.
  - apply options_chain_object.
  - rewrite result_bind, (chain_result _ options_call_returns_self).
    unfold to_document. rewrite to_document_deprecated_result.
    rewrite options_chain_object. apply compile_spec_document.
  - intros a Hne. unfold to_document.
    rewrite !to_document_deprecated_result.
    now rewrite (chain_after_other _ options_call_returns_self options_call_frames).
Qed.

(** X8.  The compiler reads a collation or storage-engine argument through
    its view only: two arguments that compare equal, one borrowed and one
    owned say, give the same compiled document. *)
Theorem compiled_document_reads_views (s : store (t V)) (this : addr)
    (c1 c2 : document_view_or_value) :
  view_or_value_eq c1 c2 ->
  result (r <- collation this c1 ;; to_document r) s
  = result (r <- collation this c2 ;; to_document r) s
  /\ result (r <- storage_engine this c1 ;; to_document r) s
     = result (r <- storage_engine this c2 ;; to_document r) s.
Proof.
  unfold view_or_value_eq. intros Hview.
  split; autounfold with setters; rewrite !document_after_setter;
    unfold wire_contract.spec_document, wire_contract.as_document; simpl;
    now rewrite Hview.
Qed.

(** The rows of the six fields of the container's own. *)
Lemma own_rows_nodup (o : t V) :
  NoDup (keys (wire_contract.spec_document (assign_validation None o))).
Proof.
  unfold wire_contract.spec_document; simpl. rewrite app_nil_r.
  destruct (_capped o), (_collation o), (_max_documents o), (_max_size o),
    (_no_padding o), (_storage_engine_opts o); simpl;
    repeat (constructor; [simpl; intuition discriminate |]); constructor.
Qed.

Lemma own_rows_length (o : t V) :
  (List.length (wire_contract.spec_document (assign_validation None o)) <= 6)%nat.
Proof.
  rewrite length_spec_document. simpl.
  destruct (_capped o), (_collation o), (_max_documents o), (_max_size o),
    (_no_padding o), (_storage_engine_opts o); simpl; lia.
Qed.

(** X9.  The rows that the container's own fields contribute to the compiled
    document are at most six and no two of them share a key; so a container
    without a validation sub-object compiles to a document of at most six
    elements with pairwise different keys. *)
Theorem own_rows_have_distinct_keys (s : store (t V)) (this : addr) :
  let doc := result (to_document_deprecated this) s in
  (exists own,
      doc = own ++ wire_contract.spliced (_validation (s this))
      /\ NoDup (keys own)
      /\ (List.length own <= 6)%nat)
  /\ (result (get_validation_criteria this) s = None ->
      NoDup (keys doc) /\ (List.length doc <= 6)%nat).
Proof.
  intros doc. subst doc.
  rewrite to_document_deprecated_result, compile_spec_document.
  split.
  - exists (wire_contract.spec_document (assign_validation None (s this))).
    split; [apply spec_document_own | split].
    + apply own_rows_nodup.
    + apply own_rows_length.
  - change (result (get_validation_criteria this) s) with (_validation (s this)).
    intros Hnone. rewrite spec_document_own, Hnone. simpl. rewrite app_nil_r.
    split; [apply own_rows_nodup | apply own_rows_length].
Qed.

End OptionsChains.

(** ** The further properties on concrete objects *)

(** A chain that sets [capped] twice: the document shows the later value,
    and the rows stand in wire order, not in call order. *)
Example sample_options_chain :
  result (r <- chains.chain chains.options_call_on 0%nat
                 [chains.cc_size 4096; chains.cc_capped true;
                  chains.cc_validation_criteria samples.strict_rule;
                  chains.cc_capped false] ;;
          create_collection_deprecated.to_document r) samples.fresh_options
  = [("capped", b_bool false); ("size", b_int64 4096);
     ("validator", b_document [("qty", b_document [("$gte", b_int32 0)])]);
     ("validationLevel", b_utf8 "strict")].
Proof. reflexivity. Qed.

(** A key of the sub-object is found through the parent; so is nothing,
    under a key that neither has. *)
Lemma lookup_in_compiled_document_witness :
  find "validator"
       (result (create_collection_deprecated.to_document_deprecated 0%nat)
               samples.chained_options)
  = find "validator" samples.sample_validation_document
  /\ find "autoIndexId"
          (result (create_collection_deprecated.to_document_deprecated 1%nat)
                  samples.chained_options)
     = None.
Proof.
  split.
  - destruct (lookup_in_compiled_document samples.chained_options 0%nat)
      as [_ [_ [_ [_ [_ [_ [Hother _]]]]]]].
    apply Hother. simpl. intuition discriminate.
  - destruct (lookup_in_compiled_document samples.chained_options 1%nat)
      as [_ [_ [_ [_ [_ [_ [_ Hnone]]]]]]].
    apply Hnone.
    + simpl. intuition discriminate.
    + reflexivity.
Defined.

(** The object next to the receiver of a chain is left alone. *)
Lemma update_one_chain_witness :
  after (chains.chain chains.update_one_call_on 2%nat
           [chains.uo_upsert true; chains.uo_collation samples.sample_collation;
            chains.uo_upsert false])
        samples.blank_updates 3%nat
  = samples.blank_updates 3%nat.
Proof.
  destruct (update_one_chain samples.blank_updates 2%nat
              [chains.uo_upsert true; chains.uo_collation samples.sample_collation;
               chains.uo_upsert false]) as [_ [_ Hframe]].
  apply Hframe. discriminate.
Defined.

Lemma options_chain_witness :
  result (create_collection_deprecated.to_document 1%nat)
         (after (chains.chain chains.options_call_on 0%nat
                   [chains.cc_capped true; chains.cc_size 10; chains.cc_capped false])
                samples.validated_options)
  = result (create_collection_deprecated.to_document 1%nat)
           samples.validated_options.
Proof.
  destruct (options_chain samples.validated_options 0%nat
              [chains.cc_capped true; chains.cc_size 10; chains.cc_capped false])
    as [_ [_ [_ Hframe]]].
  apply Hframe. discriminate.
Defined.

(** The same collation, once borrowed and once owned. *)
Lemma compiled_document_reads_views_witness :
  result (r <- create_collection_deprecated.collation 0%nat
                 (borrowed [("locale", b_utf8 "fr")]) ;;
          create_collection_deprecated.to_document r) samples.fresh_options
  = result (r <- create_collection_deprecated.collation 0%nat
                   samples.sample_collation ;;
            create_collection_deprecated.to_document r) samples.fresh_options.
Proof.
  apply (compiled_document_reads_views samples.fresh_options 0%nat
           (borrowed [("locale", b_utf8 "fr")]) samples.sample_collation).
  reflexivity.
Defined.

(** Two fields set, no sub-object: two elements, two keys. *)
Lemma own_rows_have_distinct_keys_witness :
  NoDup (keys (result (create_collection_deprecated.to_document_deprecated 0%nat)
                      (after (r <- create_collection_deprecated.max 0%nat 100%Z ;;
                              create_collection_deprecated.capped r true)
                             samples.fresh_options)))
  /\ (List.length
        (result (create_collection_deprecated.to_document_deprecated 0%nat)
                (after (r <- create_collection_deprecated.max 0%nat 100%Z ;;
                        create_collection_deprecated.capped r true)
                       samples.fresh_options)) <= 6)%nat.
Proof.
  destruct (own_rows_have_distinct_keys
              (after (r <- create_collection_deprecated.max 0%nat 100%Z ;;
                      create_collection_deprecated.capped r true)
                     samples.fresh_options) 0%nat) as [_ Hplain].
  apply Hplain. reflexivity.
Defined.
